(** * To-Do List API: authentication flow and ownership-scoped task CRUD

    A shallow embedding of [BackendAPIServer/src/api]:
    - [database_models.py]: the [users] and [tasks] tables with their
      column constraints;
    - [models.py]: the request and response schemas;
    - [security.py]: password hashing and token issuance/validation;
    - [dependencies.py]: [get_current_user];
    - [endpoints.py]: the route handlers.

    Handlers are written in explicit state-passing style over a [Store]
    (the relational database), in an error monad whose errors are the
    Python exceptions that can leave a handler.  Datetimes are integers
    counting microseconds since the epoch, timedeltas are microseconds. *)

From Stdlib Require Import ZArith Lia.
From stdpp Require Import base option list gmap strings.

Local Open Scope Z_scope.

(** ** Exceptions and results *)

(** The exceptions a handler can terminate with.  [HTTPException] is raised
    by the handlers themselves; [MultipleResultsFound] by
    [Result.scalar_one_or_none]; [IntegrityError] by [Session.commit] when
    the database rejects a statement (the string names the constraint). *)
Inductive exn :=
| HTTPException (status_code : Z) (detail : string)
| MultipleResultsFound
| IntegrityError (constraint : string).

Inductive result (A : Type) :=
| Return (a : A)
| Raise (e : exn).
Arguments Return {A} a.
Arguments Raise {A} e.

Definition bind {A B} (r : result A) (k : A -> result B) : result B :=
  match r with
  | Return a => k a
  | Raise e => Raise e
  end.

Notation "x <- r ;; k" := (bind r (fun x => k))
  (at level 100, r at next level, right associativity, only parsing).

(** The status line the framework sends: an [HTTPException] carries its own
    status, any other exception escaping a handler is a 500. *)
Definition status_of {A} (success : Z) (r : result A) : Z :=
  match r with
  | Return _ => success
  | Raise (HTTPException s _) => s
  | Raise _ => 500
  end.

#[global] Instance exn_eq_dec : EqDecision exn.
Proof. solve_decision. Defined.

(** ** database_models.py *)

(** A bcrypt hash string carries the salt it was computed with next to the
    digest. *)
Record pwhash := { ph_salt : string; ph_digest : string }.

#[global] Instance pwhash_eq_dec : EqDecision pwhash.
Proof. solve_decision. Defined.

Module User.
Record t := mk {
  id : Z;                      (* primary key *)
  username : string;           (* unique, not null *)
  email : string;              (* unique, not null *)
  hashed_password : pwhash;    (* not null *)
  created_at : Z               (* server_default now() *)
}.
End User.

Module Task.
Record t := mk {
  id : Z;                      (* primary key *)
  title : string;              (* not null *)
  description : option string; (* nullable *)
  completed : bool;            (* default False, not null *)
  due_date : option Z;         (* nullable *)
  owner_id : Z;                (* foreign key users.id, not null *)
  created_at : Z;              (* server_default now() *)
  updated_at : Z               (* server_default now(), onupdate now() *)
}.
End Task.

#[global] Instance User_eq_dec : EqDecision User.t.
Proof. solve_decision. Defined.

#[global] Instance Task_eq_dec : EqDecision Task.t.
Proof. solve_decision. Defined.

(** The database: both tables in insertion order, and the two sequences
    that feed the primary keys. *)
Record Store := {
  users : list User.t;
  tasks : list Task.t;
  users_id_seq : Z;
  tasks_id_seq : Z
}.

Definition empty_store : Store :=
  {| users := []; tasks := []; users_id_seq := 1; tasks_id_seq := 1 |}.

(** [Result.scalar_one_or_none]: no row gives [None], one row gives it,
    more than one row raises. *)
Definition scalar_one_or_none {A} (rows : list A) : result (option A) :=
  match rows with
  | [] => Return None
  | [x] => Return (Some x)
  | _ :: _ :: _ => Raise MultipleResultsFound
  end.

(** ** models.py *)

Module UserRegistration.
Record t := mk { username : string; email : string; password : string }.
End UserRegistration.

Module UserLogin.
Record t := mk { username : string; password : string }.
End UserLogin.

Module UserRead.
Record t := mk { id : Z; username : string; email : string; created_at : Z }.
End UserRead.

Module TaskCreate.
Record t := mk {
  title : string;
  description : option string;
  due_date : option Z
}.
End TaskCreate.

(** Every field of [TaskUpdate] is [Optional] with default [None]; pydantic
    also records which fields the request body set.  The outer [option] is
    that record ([None]: not provided), the inner one the value (an inner
    [None] is an explicit [null]). *)
Module TaskUpdate.
Record t := mk {
  title : option (option string);
  description : option (option string);
  completed : option (option bool);
  due_date : option (option Z)
}.
End TaskUpdate.

Module TaskRead.
Record t := mk {
  id : Z;
  title : string;
  description : option string;
  completed : bool;
  due_date : option Z;
  owner_id : Z;
  created_at : Z;
  updated_at : Z
}.
End TaskRead.

(** ** Tokens *)

(** Values a claims dictionary holds. *)
Inductive pyval :=
| PStr (s : string)
| PInt (n : Z)
| PDatetime (us : Z).

#[global] Instance pyval_eq_dec : EqDecision pyval.
Proof. solve_decision. Defined.

(** A bearer string is either a compact JWS (header algorithm, claims,
    signature) or something that does not parse as one. *)
Inductive token :=
| Jws (alg : string) (claims : gmap string pyval) (signature : Z)
| NotAJws (raw : string).

Module Token.
Record t := mk { access_token : token; token_type : string }.
End Token.

(** What [jwt.decode] can raise; all three are [JWTError]s. *)
Inductive JWTError :=
| JWSError (msg : string)
| ExpiredSignatureError
| JWTClaimsError (msg : string).

(** Seconds since the epoch of a datetime: [timegm(d.utctimetuple())]
    drops the microseconds. *)
Definition timegm (d : Z) : Z := d / 1000000.

Definition timedelta_minutes (m : Z) : Z := m * 60 * 1000000.

(** The clock readings and the salt a request consumes. *)
Record Env := {
  utcnow : Z;    (* datetime.utcnow() on the application server *)
  db_now : Z;    (* now() inside the database transaction *)
  salt : string  (* the salt pwd_context.hash draws *)
}.

(** ** What the service takes from outside

    The signing secret comes from the process environment, the MAC from
    python-jose and the password digest from passlib's bcrypt.  Nothing is
    assumed about the two functions beyond their being functions. *)
Class Deps := {
  SECRET_KEY : string;
  (* HMAC-SHA256 of the signing input (header algorithm and claims) *)
  hmac_sha256 : string -> string -> gmap string pyval -> Z;
  (* the bcrypt digest of a password under a salt *)
  bcrypt_digest : string -> string -> string
}.

Section Service.
Context `{deps : Deps}.

(** ** jose.jwt, as far as the service uses it *)

(** [jwt.encode] replaces a datetime held by a time claim with its
    numeric date before signing. *)
Definition numeric_date (v : pyval) : pyval :=
  match v with
  | PDatetime d => PInt (timegm d)
  | _ => v
  end.

Definition jwt_encode (claims : gmap string pyval) (key algorithm : string)
  : token :=
  let claims :=
    alter numeric_date "exp"
      (alter numeric_date "iat" (alter numeric_date "nbf" claims)) in
  Jws algorithm claims (hmac_sha256 key algorithm claims).

(** [_validate_exp]: a token without [exp] has no expiry; an expiry must be
    an integer and is past when it is below the current second. *)
Definition validate_exp (claims : gmap string pyval) (now : Z)
  : option JWTError :=
  match claims !! "exp" with
  | None => None
  | Some (PInt e) =>
      if bool_decide (e < timegm now) then Some ExpiredSignatureError
      else None
  | Some _ =>
      Some (JWTClaimsError "Expiration Time claim (exp) must be an integer.")
  end.

(** [_validate_sub]: a subject, when present, must be a string. *)
Definition validate_sub (claims : gmap string pyval) : option JWTError :=
  match claims !! "sub" with
  | None | Some (PStr _) => None
  | Some _ => Some (JWTClaimsError "Subject must be a string.")
  end.

(** [jwt.decode token key algorithms=[...]] read at time [now]: the
    signature is verified first, then the claims.  Of the registered claims
    only [exp] and [sub] are modelled, the two the service issues. *)
Definition jwt_decode (tok : token) (key : string) (algorithms : list string)
    (now : Z) : JWTError + gmap string pyval :=
  match tok with
  | NotAJws _ => inl (JWSError "Error decoding token headers.")
  | Jws alg claims sig =>
      if negb (bool_decide (alg ∈ algorithms)) then
        inl (JWSError "The specified alg value is not allowed")
      else if negb (bool_decide (sig = hmac_sha256 key alg claims)) then
        inl (JWSError "Signature verification failed.")
      else
        match validate_exp claims now with
        | Some e => inl e
        | None =>
            match validate_sub claims with
            | Some e => inl e
            | None => inr claims
            end
        end
  end.

(** ** security.py *)

Definition ALGORITHM : string := "HS256".
Definition ACCESS_TOKEN_EXPIRE_MINUTES : Z := 60 * 24.

(** [pwd_context.hash] with the salt it drew. *)
Definition get_password_hash (salt password : string) : pwhash :=
  {| ph_salt := salt; ph_digest := bcrypt_digest salt password |}.

(** [pwd_context.verify]: recompute the digest under the stored salt. *)
Definition verify_password (plain_password : string) (hashed_password : pwhash)
  : bool :=
  bool_decide
    (bcrypt_digest (ph_salt hashed_password) plain_password
     = ph_digest hashed_password).

(** [if expires_delta:] is false for [None] and for a zero timedelta. *)
Definition create_access_token (data : gmap string pyval)
    (expires_delta : option Z) (utcnow : Z) : token :=
  let to_encode := data in
  let expire :=
    match expires_delta with
    | Some d =>
        if bool_decide (d ≠ 0) then utcnow + d
        else utcnow + timedelta_minutes ACCESS_TOKEN_EXPIRE_MINUTES
    | None => utcnow + timedelta_minutes ACCESS_TOKEN_EXPIRE_MINUTES
    end in
  let to_encode := <["exp" := PDatetime expire]> to_encode in
  jwt_encode to_encode SECRET_KEY ALGORITHM.

(** [try: ... except JWTError: return None]: every decoding error
    collapses to [None]. *)
Definition decode_access_token (tok : token) (utcnow : Z)
  : option (gmap string pyval) :=
  match jwt_decode tok SECRET_KEY [ALGORITHM] utcnow with
  | inr payload => Some payload
  | inl _ => None
  end.

(** ** dependencies.py *)

Definition credentials_exception : exn :=
  HTTPException 401 "Could not validate credentials.".

Definition get_current_user (tok : token) (utcnow : Z) (db : Store)
  : result User.t :=
  match decode_access_token tok utcnow with
  | None => Raise credentials_exception
  | Some payload =>
      match payload !! "sub" with
      | None => Raise credentials_exception
      | Some username =>
          let rows :=
            filter (λ u, PStr (User.username u) = username) (users db) in
          user <- scalar_one_or_none rows ;;
          match user with
          | None => Raise credentials_exception
          | Some user => Return user
          end
      end
  end.

(** ** The session: what [commit] does to the tables *)

(** [db.add(User(...)); await db.commit(); await db.refresh(...)]: one
    INSERT into [users].  The id comes from the sequence, [created_at] from
    the server default; the unique indexes on [username] and [email] and
    the primary key are checked against the rows present at commit. *)
Definition insert_user (username email : string) (hashed_password : pwhash)
    (now : Z) (db : Store) : result (User.t * Store) :=
  let row := User.mk (users_id_seq db) username email hashed_password now in
  if bool_decide (username ∈ User.username <$> users db) then
    Raise (IntegrityError "ix_users_username")
  else if bool_decide (email ∈ User.email <$> users db) then
    Raise (IntegrityError "ix_users_email")
  else if bool_decide (User.id row ∈ User.id <$> users db) then
    Raise (IntegrityError "users_pkey")
  else
    Return (row, {| users := users db ++ [row];
                    tasks := tasks db;
                    users_id_seq := users_id_seq db + 1;
                    tasks_id_seq := tasks_id_seq db |}).

(** One INSERT into [tasks]: [completed] takes its column default,
    both timestamps the server default; the foreign key and the primary
    key are checked. *)
Definition insert_task (title : string) (description : option string)
    (due_date : option Z) (owner_id : Z) (now : Z) (db : Store)
  : result (Task.t * Store) :=
  let row :=
    Task.mk (tasks_id_seq db) title description false due_date owner_id
            now now in
  if negb (bool_decide (owner_id ∈ User.id <$> users db)) then
    Raise (IntegrityError "tasks_owner_id_fkey")
  else if bool_decide (Task.id row ∈ Task.id <$> tasks db) then
    Raise (IntegrityError "tasks_pkey")
  else
    Return (row, {| users := users db;
                    tasks := tasks db ++ [row];
                    users_id_seq := users_id_seq db;
                    tasks_id_seq := tasks_id_seq db + 1 |}).

(** The value an attribute holds after the [setattr] loop over
    [model_dump(exclude_unset=True)]: the one the body set, else the one
    that was loaded. *)
Definition attr_after {A} (loaded : A) (set : option A) : A :=
  default loaded set.

(** At flush the unit of work compares each attribute with the value that
    was loaded; an attribute set to an equal value is no change. *)
Definition net_change (task : Task.t) (task_in : TaskUpdate.t) : bool :=
  bool_decide
    (attr_after (Some (Task.title task)) (TaskUpdate.title task_in)
     ≠ Some (Task.title task))
  || bool_decide
       (attr_after (Task.description task) (TaskUpdate.description task_in)
        ≠ Task.description task)
  || bool_decide
       (attr_after (Some (Task.completed task)) (TaskUpdate.completed task_in)
        ≠ Some (Task.completed task))
  || bool_decide
       (attr_after (Task.due_date task) (TaskUpdate.due_date task_in)
        ≠ Task.due_date task).

(** The row an UPDATE of [task] writes.  Without a net change no UPDATE is
    emitted and the row, [updated_at] included, stays as it is.  Otherwise
    the changed attributes are written, [updated_at] takes [onupdate], and
    a [None] in a [nullable=False] column is rejected. *)
Definition updated_row (task : Task.t) (task_in : TaskUpdate.t) (now : Z)
  : result Task.t :=
  if negb (net_change task task_in) then Return task
  else
    match attr_after (Some (Task.title task)) (TaskUpdate.title task_in),
          attr_after (Some (Task.completed task))
                     (TaskUpdate.completed task_in) with
    | None, _ => Raise (IntegrityError "tasks.title NOT NULL")
    | _, None => Raise (IntegrityError "tasks.completed NOT NULL")
    | Some title, Some completed =>
        Return
          (Task.mk (Task.id task) title
             (attr_after (Task.description task)
                         (TaskUpdate.description task_in))
             completed
             (attr_after (Task.due_date task) (TaskUpdate.due_date task_in))
             (Task.owner_id task) (Task.created_at task) now)
    end.

Definition replace_task (row : Task.t) (db : Store) : Store :=
  {| users := users db;
     tasks := (λ t, if bool_decide (Task.id t = Task.id row) then row else t)
                <$> tasks db;
     users_id_seq := users_id_seq db;
     tasks_id_seq := tasks_id_seq db |}.

(** [await db.delete(task); await db.commit()] *)
Definition delete_row (task : Task.t) (db : Store) : Store :=
  {| users := users db;
     tasks := filter (λ t, Task.id t ≠ Task.id task) (tasks db);
     users_id_seq := users_id_seq db;
     tasks_id_seq := tasks_id_seq db |}.

(** ** endpoints.py *)

Definition UserRead_of (user : User.t) : UserRead.t :=
  UserRead.mk (User.id user) (User.username user) (User.email user)
              (User.created_at user).

Definition TaskRead_of (task : Task.t) : TaskRead.t :=
  TaskRead.mk (Task.id task) (Task.title task) (Task.description task)
              (Task.completed task) (Task.due_date task) (Task.owner_id task)
              (Task.created_at task) (Task.updated_at task).

Definition conflict : exn :=
  HTTPException 400 "Username or email already in use.".

(** [register_user], with what other sessions commit between its SELECT
    and its own commit made explicit as [between]. *)
Definition register_user_between (between : Store -> Store)
    (user_in : UserRegistration.t) (env : Env) (db : Store)
  : Store * result UserRead.t :=
  let existing :=
    filter (λ u, User.username u = UserRegistration.username user_in
                 ∨ User.email u = UserRegistration.email user_in)
           (users db) in
  match scalar_one_or_none existing with
  | Raise e => (db, Raise e)
  | Return (Some _) => (db, Raise conflict)
  | Return None =>
      let db := between db in
      match insert_user (UserRegistration.username user_in)
                        (UserRegistration.email user_in)
                        (get_password_hash (salt env)
                           (UserRegistration.password user_in))
                        (db_now env) db with
      | Raise e => (db, Raise e)
      | Return (user_obj, db) => (db, Return (UserRead_of user_obj))
      end
  end.

(** [register_user] when no other session interferes. *)
Definition register_user (user_in : UserRegistration.t) (env : Env)
    (db : Store) : Store * result UserRead.t :=
  register_user_between (λ db, db) user_in env db.

Definition login_failed : exn :=
  HTTPException 401 "Incorrect username or password.".

Definition login_user (user_in : UserLogin.t) (env : Env) (db : Store)
  : result Token.t :=
  let rows :=
    filter (λ u, User.username u = UserLogin.username user_in) (users db) in
  user <- scalar_one_or_none rows ;;
  match user with
  | None => Raise login_failed
  | Some user =>
      if negb (verify_password (UserLogin.password user_in)
                               (User.hashed_password user))
      then Raise login_failed
      else
        let tok :=
          create_access_token {[ "sub" := PStr (User.username user) ]}
                              None (utcnow env) in
        Return (Token.mk tok "bearer")
  end.

Definition get_my_profile (current_user : User.t) : result UserRead.t :=
  Return (UserRead_of current_user).

Definition create_task (task_in : TaskCreate.t) (env : Env) (db : Store)
    (current_user : User.t) : Store * result TaskRead.t :=
  match insert_task (TaskCreate.title task_in) (TaskCreate.description task_in)
                    (TaskCreate.due_date task_in) (User.id current_user)
                    (db_now env) db with
  | Raise e => (db, Raise e)
  | Return (task, db) => (db, Return (TaskRead_of task))
  end.

Definition list_tasks (db : Store) (current_user : User.t)
  : result (list TaskRead.t) :=
  let tasks :=
    filter (λ t, Task.owner_id t = User.id current_user) (tasks db) in
  Return (TaskRead_of <$> tasks).

Definition task_not_found : exn := HTTPException 404 "Task not found.".

(** The SELECT shared by the three single-task handlers. *)
Definition owned_task (task_id : Z) (db : Store) (current_user : User.t)
  : result (option Task.t) :=
  scalar_one_or_none
    (filter (λ t, Task.id t = task_id
                  ∧ Task.owner_id t = User.id current_user)
            (tasks db)).

Definition get_task (task_id : Z) (db : Store) (current_user : User.t)
  : result TaskRead.t :=
  task <- owned_task task_id db current_user ;;
  match task with
  | None => Raise task_not_found
  | Some task => Return (TaskRead_of task)
  end.

Definition update_task (task_id : Z) (task_in : TaskUpdate.t) (env : Env)
    (db : Store) (current_user : User.t) : Store * result TaskRead.t :=
  match owned_task task_id db current_user with
  | Raise e => (db, Raise e)
  | Return None => (db, Raise task_not_found)
  | Return (Some task) =>
      match updated_row task task_in (db_now env) with
      | Raise e => (db, Raise e)
      | Return task => (replace_task task db, Return (TaskRead_of task))
      end
  end.

Definition delete_task (task_id : Z) (db : Store) (current_user : User.t)
  : Store * result unit :=
  match owned_task task_id db current_user with
  | Raise e => (db, Raise e)
  | Return None => (db, Raise task_not_found)
  | Return (Some task) => (delete_row task db, Return tt)
  end.

(** ** The protected routes

    [Depends(get_current_user)]: the framework resolves the bearer token
    first and calls the handler only with a user; an exception from the
    dependency is the response. *)
Definition Depends_current_user {A} (tok : token) (env : Env) (db : Store)
    (handler : User.t -> Store * result A) : Store * result A :=
  match get_current_user tok (utcnow env) db with
  | Raise e => (db, Raise e)
  | Return current_user => handler current_user
  end.

Definition GET_users_me (tok : token) (env : Env) (db : Store) :=
  Depends_current_user tok env db (λ u, (db, get_my_profile u)).

Definition POST_tasks (tok : token) (task_in : TaskCreate.t) (env : Env)
    (db : Store) :=
  Depends_current_user tok env db (create_task task_in env db).

Definition GET_tasks (tok : token) (env : Env) (db : Store) :=
  Depends_current_user tok env db (λ u, (db, list_tasks db u)).

Definition GET_task (tok : token) (task_id : Z) (env : Env) (db : Store) :=
  Depends_current_user tok env db (λ u, (db, get_task task_id db u)).

Definition PUT_task (tok : token) (task_id : Z) (task_in : TaskUpdate.t)
    (env : Env) (db : Store) :=
  Depends_current_user tok env db (update_task task_id task_in env db).

Definition DELETE_task (tok : token) (task_id : Z) (env : Env) (db : Store) :=
  Depends_current_user tok env db (delete_task task_id db).

End Service.

(** ** The invariant of the store

    What the schema guarantees of every database state: primary keys and
    the two unique columns have no duplicates, the sequences are ahead of
    every key handed out, and every task's owner exists. *)
Definition store_wf (db : Store) : Prop :=
  NoDup (User.id <$> users db)
  ∧ NoDup (User.username <$> users db)
  ∧ NoDup (User.email <$> users db)
  ∧ NoDup (Task.id <$> tasks db)
  ∧ Forall (λ u, User.id u < users_id_seq db) (users db)
  ∧ Forall (λ t, Task.id t < tasks_id_seq db) (tasks db)
  ∧ Forall (λ t, Task.owner_id t ∈ User.id <$> users db) (tasks db).

#[global] Instance store_wf_dec (db : Store) : Decision (store_wf db).
Proof. unfold store_wf. apply _. Defined.

(** Closes a decidable closed goal by evaluating its decision. *)
Ltac by_compute := apply (bool_decide_unpack _); vm_compute; exact I.

(** A stand-in for the outside world, to run the service on concrete
    requests: the default secret of [security.py], a checksum for the MAC
    and concatenation for the digest. *)
Definition demo_deps : Deps :=
  {| SECRET_KEY := "change_this_secret";
     hmac_sha256 := λ key alg claims,
       Z.of_nat (String.length key + String.length alg + size claims);
     bcrypt_digest := λ salt password, salt +:+ "$" +:+ password |}.

Definition demo_env : Env :=
  {| utcnow := 1700000000000000; db_now := 1700000000000000; salt := "s1" |}.

(** Two registered users, one task of the first, and their tokens. *)
Definition demo_alice : User.t :=
  User.mk 1 "alice" "a@x.com"
    (@get_password_hash demo_deps "s0" "secret1") 1600000000000000.

Definition demo_bob : User.t :=
  User.mk 2 "bob" "b@x.com"
    (@get_password_hash demo_deps "s0" "secret2") 1600000000000000.

Definition demo_task : Task.t :=
  Task.mk 1 "buy milk" None true None 1 1650000000000000 1650000000000000.

Definition demo_store : Store :=
  {| users := [demo_alice; demo_bob];
     tasks := [demo_task];
     users_id_seq := 3;
     tasks_id_seq := 2 |}.

Definition demo_alice_token : token :=
  @create_access_token demo_deps {[ "sub" := PStr "alice" ]} None
    (utcnow demo_env).

Definition demo_bob_token : token :=
  @create_access_token demo_deps {[ "sub" := PStr "bob" ]} None
    (utcnow demo_env).

(** A token signed under the secret that names no subject. *)
Definition demo_anonymous_token : token :=
  @create_access_token demo_deps ∅ None (utcnow demo_env).



(** The stores of the end-to-end scenario: register, create, update,
    delete, starting from the empty store. *)
Definition scenario_registered : Store :=
  fst (@register_user demo_deps
         (UserRegistration.mk "alice" "a@x.com" "secret1") demo_env
         empty_store).

Definition scenario_created : Store :=
  fst (@POST_tasks demo_deps demo_alice_token
         (TaskCreate.mk "buy milk" None None) demo_env scenario_registered).

Definition scenario_updated : Store :=
  fst (@PUT_task demo_deps demo_alice_token 1
         (TaskUpdate.mk None None (Some (Some true)) None) demo_env
         scenario_created).

Definition scenario_deleted : Store :=
  fst (@DELETE_task demo_deps demo_alice_token 1 demo_env scenario_updated).


(** * Properties *)

(** ** Queries on a keyed table *)

Lemma filter_is_nil {A} (P : A -> Prop) `{∀ x, Decision (P x)} (l : list A) :
  (∀ x, x ∈ l -> ¬ P x) -> filter P l = [].
Proof.
  induction l as [|a l IH]; intros Hno; [done|].
  rewrite filter_cons. destruct (decide (P a)) as [Ha|_].
  - exfalso. apply (Hno a); [left | done].
  - apply IH. intros x Hx. apply Hno. by right.
Qed.

Section Keyed.
Context {A K : Type} `{EqDecision K} (key : A -> K).
Context (P : A -> Prop) `{∀ x, Decision (P x)}.

(** When a predicate pins the value of a key that has no duplicates, at
    most one row satisfies it. *)
Lemma filter_key_at_most_one (k : K) (l : list A) :
  NoDup (key <$> l) ->
  (∀ x, P x -> key x = k) ->
  filter P l = [] ∨ ∃ x, filter P l = [x].
Proof.
  intros Hnd HP. induction l as [|a l IH]; [by left|].
  rewrite fmap_cons in Hnd. apply NoDup_cons in Hnd as [Hnotin Hnd].
  rewrite filter_cons. destruct (decide (P a)) as [Ha|Ha]; [|by apply IH].
  right. exists a. f_equal.
  apply filter_is_nil. intros x Hx HPx.
  apply Hnotin. apply list_elem_of_fmap. exists x. split; [|done].
  by rewrite (HP a Ha), (HP x HPx).
Qed.

Lemma scalar_one_or_none_keyed (k : K) (l : list A) :
  NoDup (key <$> l) ->
  (∀ x, P x -> key x = k) ->
  scalar_one_or_none (filter P l) = Return (head (filter P l)).
Proof.
  intros Hnd HP.
  destruct (filter_key_at_most_one k l Hnd HP) as [-> | [x ->]]; done.
Qed.

End Keyed.

Lemma head_filter_Some {A} (P : A -> Prop) `{∀ x, Decision (P x)}
    (l : list A) (x : A) :
  head (filter P l) = Some x -> x ∈ l ∧ P x.
Proof.
  intros Hh. apply head_Some_elem_of in Hh.
  by apply list_elem_of_filter in Hh as [? ?].
Qed.

Lemma head_filter_None {A} (P : A -> Prop) `{∀ x, Decision (P x)}
    (l : list A) :
  head (filter P l) = None -> ∀ x, x ∈ l -> ¬ P x.
Proof.
  intros Hh x Hx HPx. apply head_None in Hh.
  assert (x ∈ filter P l) as Hin by by apply list_elem_of_filter.
  rewrite Hh in Hin. by apply not_elem_of_nil in Hin.
Qed.

(** Two rows with the same value of a duplicate-free key are the same row. *)
Lemma NoDup_key_inj {A K} (key : A -> K) (l : list A) (x y : A) :
  NoDup (key <$> l) -> x ∈ l -> y ∈ l -> key x = key y -> x = y.
Proof.
  induction l as [|a l IH]; intros Hnd Hx Hy Heq.
  - by apply not_elem_of_nil in Hx.
  - rewrite fmap_cons in Hnd. apply NoDup_cons in Hnd as [Hnotin Hnd].
    apply elem_of_cons in Hx as [->|Hx]; apply elem_of_cons in Hy as [->|Hy].
    + done.
    + exfalso. apply Hnotin. rewrite Heq. by apply list_elem_of_fmap_2.
    + exfalso. apply Hnotin. rewrite <- Heq. by apply list_elem_of_fmap_2.
    + by apply IH.
Qed.

Section Properties.
Context `{deps : Deps}.

(** ** Tokens *)

Lemma timegm_add_seconds (d s : Z) : timegm (d + s * 1000000) = timegm d + s.
Proof. unfold timegm. by rewrite Z.div_add. Qed.


(** The token [create_access_token] issues with the default lifetime: signed
    under the secret, [exp] the numeric date one day after issuance, every
    other claim of [data] except the time claims as given. *)
Lemma create_access_token_default (data : gmap string pyval) (now : Z) :
  ∃ claims,
    create_access_token data None now
    = Jws ALGORITHM claims (hmac_sha256 SECRET_KEY ALGORITHM claims)
    ∧ claims !! "exp"
      = Some (PInt (timegm (now
                            + timedelta_minutes ACCESS_TOKEN_EXPIRE_MINUTES)))
    ∧ claims !! "sub" = data !! "sub".
Proof.
  unfold create_access_token, jwt_encode. eexists. split; [done|]. split.
  - by rewrite lookup_alter_eq, !lookup_alter_ne, lookup_insert_eq.
  - by rewrite !lookup_alter_ne, lookup_insert_ne.
Qed.

(** Decoding a token signed under the secret whose subject is a string or
    absent: the expiry alone decides. *)
Lemma decode_signed (claims : gmap string pyval) (e now : Z) :
  claims !! "exp" = Some (PInt e) ->
  validate_sub claims = None ->
  decode_access_token
    (Jws ALGORITHM claims (hmac_sha256 SECRET_KEY ALGORITHM claims)) now
  = if bool_decide (e < timegm now) then None else Some claims.
Proof.
  intros Hexp Hsub. unfold decode_access_token, jwt_decode.
  rewrite bool_decide_true by (apply list_elem_of_singleton; done).
  rewrite bool_decide_true by done. simpl.
  unfold validate_exp. rewrite Hexp, Hsub. by case_bool_decide.
Qed.

Lemma decode_bad_signature (alg : string) (claims : gmap string pyval)
    (sig now : Z) :
  sig ≠ hmac_sha256 SECRET_KEY alg claims ->
  decode_access_token (Jws alg claims sig) now = None.
Proof.
  intros Hsig. unfold decode_access_token, jwt_decode.
  destruct (bool_decide (alg ∈ [ALGORITHM])); [|done]. simpl.
  by rewrite bool_decide_false.
Qed.

Lemma decode_expired (alg : string) (claims : gmap string pyval)
    (sig e now : Z) :
  claims !! "exp" = Some (PInt e) -> e < timegm now ->
  decode_access_token (Jws alg claims sig) now = None.
Proof.
  intros Hexp Hlt. unfold decode_access_token, jwt_decode.
  destruct (bool_decide (alg ∈ [ALGORITHM])); [|done]. simpl.
  destruct (bool_decide (sig = _)); [|done]. simpl.
  unfold validate_exp. rewrite Hexp. by rewrite bool_decide_true.
Qed.

(** The token [login_user] issues for a subject at time [T], and what
    decoding it gives at any instant. *)
Lemma issued_token_decode (subject : string) (T : Z) :
  ∃ claims,
    create_access_token {[ "sub" := PStr subject ]} None T
    = Jws ALGORITHM claims (hmac_sha256 SECRET_KEY ALGORITHM claims)
    ∧ claims !! "sub" = Some (PStr subject)
    ∧ claims !! "exp" = Some (PInt (timegm T + 24 * 3600))
    ∧ ∀ now,
        decode_access_token
          (create_access_token {[ "sub" := PStr subject ]} None T) now
        = if bool_decide (timegm T + 24 * 3600 < timegm now)
          then None else Some claims.
Proof.
  destruct (create_access_token_default {[ "sub" := PStr subject ]} T)
    as (claims & Htok & Hexp & Hsub).
  rewrite lookup_singleton_eq in Hsub.
  assert (timedelta_minutes ACCESS_TOKEN_EXPIRE_MINUTES
          = 24 * 3600 * 1000000) as Httl by done.
  rewrite Httl, timegm_add_seconds in Hexp.
  exists claims. repeat split; try done.
  intros now. rewrite Htok. apply decode_signed; [done|].
  unfold validate_sub. by rewrite Hsub.
Qed.

(** C4.  The token issued for a subject at time [T] is signed, carries the
    subject and the expiry [T] plus 1440 minutes (as a numeric date),
    validates one minute after [T] and no longer validates 25 hours after
    [T]; it validates at exactly the instants whose second is not past the
    expiry. *)
Theorem C4_token_lifetime (subject : string) (T : Z) :
  let tok := create_access_token {[ "sub" := PStr subject ]} None T in
  ∃ claims,
    tok = Jws "HS256" claims (hmac_sha256 SECRET_KEY "HS256" claims)
    ∧ claims !! "sub" = Some (PStr subject)
    ∧ claims !! "exp" = Some (PInt (timegm (T + 24 * 3600 * 1000000)))
    ∧ decode_access_token tok (T + 60 * 1000000) = Some claims
    ∧ decode_access_token tok (T + 25 * 3600 * 1000000) = None
    ∧ ∀ now, decode_access_token tok now = Some claims
             <-> timegm now <= timegm T + 24 * 3600.
Proof.
  intros tok. subst tok.
  destruct (issued_token_decode subject T) as (claims & Htok & Hsub & Hexp & Hdec).
  exists claims. rewrite !Hdec, !timegm_add_seconds.
  do 3 (split; [done|]). split; [|split].
  - rewrite bool_decide_false; [done|lia].
  - rewrite bool_decide_true; [done|lia].
  - intros now. rewrite Hdec. case_bool_decide; split; (done || lia).
Qed.

(** ** Identity resolution *)

Lemma users_by_subject (db : Store) (v : pyval) :
  store_wf db ->
  scalar_one_or_none (filter (λ u, PStr (User.username u) = v) (users db))
  = Return (head (filter (λ u, PStr (User.username u) = v) (users db))).
Proof.
  intros (_ & Hnames & _).
  destruct v as [name| |].
  - apply (scalar_one_or_none_keyed User.username _ name); [done|].
    by intros x [= ->].
  - apply (scalar_one_or_none_keyed User.username _ ""); [done|]. by intros x.
  - apply (scalar_one_or_none_keyed User.username _ ""); [done|]. by intros x.
Qed.

(** [get_current_user] on a store with unique usernames, by cases on the
    decoded payload. *)
Lemma get_current_user_unfold (tok : token) (now : Z) (db : Store) :
  store_wf db ->
  get_current_user tok now db =
    match decode_access_token tok now with
    | None => Raise credentials_exception
    | Some payload =>
        match payload !! "sub" with
        | None => Raise credentials_exception
        | Some v =>
            match head (filter (λ u, PStr (User.username u) = v) (users db))
            with
            | None => Raise credentials_exception
            | Some user => Return user
            end
        end
    end.
Proof.
  intros Hwf. unfold get_current_user.
  destruct (decode_access_token tok now) as [payload|]; [|done].
  destruct (payload !! "sub") as [v|]; [|done].
  by rewrite users_by_subject.
Qed.



(** C10.  A token that validates but carries no [sub] claim makes the
    dependency raise the 401 credentials exception, so no handler runs:
    the profile route and the five task routes all answer 401 and hand
    back the store as it was. *)
Theorem C10_missing_sub_rejected (tok : token) (env : Env) (db : Store)
    (payload : gmap string pyval) :
  decode_access_token tok (utcnow env) = Some payload ->
  payload !! "sub" = None ->
  (∀ A (handler : User.t -> Store * result A),
     Depends_current_user tok env db handler
     = (db, Raise credentials_exception))
  ∧ GET_users_me tok env db = (db, Raise credentials_exception)
  ∧ (∀ task_in, POST_tasks tok task_in env db
                = (db, Raise credentials_exception))
  ∧ GET_tasks tok env db = (db, Raise credentials_exception)
  ∧ (∀ task_id, GET_task tok task_id env db
                = (db, Raise credentials_exception))
  ∧ (∀ task_id task_in, PUT_task tok task_id task_in env db
                        = (db, Raise credentials_exception))
  ∧ (∀ task_id, DELETE_task tok task_id env db
                = (db, Raise credentials_exception))
  ∧ status_of 200 (Raise credentials_exception : result unit) = 401.
Proof.
  intros Hdec Hsub.
  assert (∀ A (handler : User.t -> Store * result A),
            Depends_current_user tok env db handler
            = (db, Raise credentials_exception)) as Hdep.
  { intros A handler. unfold Depends_current_user, get_current_user.
    by rewrite Hdec, Hsub. }
  repeat split; try done; intros; apply Hdep.
Qed.

(** ** The store invariant under INSERT *)

Lemma NoDup_fmap_snoc {A K} (key : A -> K) (l : list A) (x : A) :
  NoDup (key <$> l) -> key x ∉ key <$> l -> NoDup (key <$> (l ++ [x])).
Proof.
  intros Hnd Hnotin. rewrite fmap_app. apply NoDup_app. split; [done|].
  split; [|apply NoDup_singleton].
  intros k Hk Hk'. apply list_elem_of_singleton in Hk'. by subst.
Qed.

Lemma seq_not_in_ids {A} (key : A -> Z) (l : list A) (next : Z) :
  Forall (λ x, key x < next) l -> next ∉ key <$> l.
Proof.
  intros Hall Hin. apply list_elem_of_fmap in Hin as (x & -> & Hx).
  rewrite Forall_forall in Hall. specialize (Hall x Hx). simpl in Hall. lia.
Qed.


Lemma insert_user_wf (name mail : string) (h : pwhash) (now : Z)
    (db db' : Store) (row : User.t) :
  store_wf db ->
  insert_user name mail h now db = Return (row, db') ->
  store_wf db'.
Proof.
  intros (Hids & Hnames & Hmails & Htids & Hseq & Htseq & Hown).
  unfold insert_user. repeat case_bool_decide; try done.
  intros [= <- <-]. simpl in *. repeat split; simpl.
  - by apply NoDup_fmap_snoc.
  - by apply NoDup_fmap_snoc.
  - by apply NoDup_fmap_snoc.
  - done.
  - apply Forall_app. split.
    + eapply Forall_impl; [exact Hseq|]. simpl. intros; lia.
    + apply Forall_singleton. simpl. lia.
  - done.
  - eapply Forall_impl; [exact Hown|]. simpl. intros t Ht.
    rewrite fmap_app. apply elem_of_app. by left.
Qed.


(** ** Password hashing *)

Lemma verify_password_hash (salt password : string) :
  verify_password password (get_password_hash salt password) = true.
Proof. unfold verify_password, get_password_hash. by apply bool_decide_true. Qed.

(** ** Registration and login *)



(** A single stored user holding the username or the email: 400, and the
    store is handed back as it was. *)
Lemma register_user_taken_once (user_in : UserRegistration.t) (env : Env)
    (db : Store) (u : User.t) :
  filter (λ u, User.username u = UserRegistration.username user_in
               ∨ User.email u = UserRegistration.email user_in) (users db)
  = [u] ->
  register_user user_in env db = (db, Raise conflict).
Proof.
  intros Hsel. unfold register_user, register_user_between.
  by rewrite Hsel.
Qed.

Lemma two_members {A} (l : list A) (x y : A) :
  x ∈ l -> y ∈ l -> x ≠ y -> ∃ a b rest, l = a :: b :: rest.
Proof.
  intros Hx Hy Hne. destruct l as [|a [|b rest]].
  - by apply not_elem_of_nil in Hx.
  - apply list_elem_of_singleton in Hx, Hy. congruence.
  - by exists a, b, rest.
Qed.


Lemma head_filter_key {A K} `{EqDecision K} (key : A -> K) (l : list A)
    (x : A) :
  NoDup (key <$> l) -> x ∈ l ->
  head (filter (λ y, key y = key x) l) = Some x.
Proof.
  intros Hnd Hx.
  destruct (head (filter (λ y, key y = key x) l)) as [y|] eqn:Hhead.
  - apply head_filter_Some in Hhead as [Hy Hkey].
    f_equal. by apply (NoDup_key_inj key l).
  - exfalso. by apply (head_filter_None _ _ Hhead x Hx).
Qed.

(** [login_user] on a store with unique usernames. *)
Lemma login_user_unfold (user_in : UserLogin.t) (env : Env) (db : Store) :
  store_wf db ->
  login_user user_in env db =
    match head (filter (λ u, User.username u = UserLogin.username user_in)
                       (users db)) with
    | None => Raise login_failed
    | Some user =>
        if verify_password (UserLogin.password user_in)
                           (User.hashed_password user)
        then Return (Token.mk (create_access_token
                                 {[ "sub" := PStr (User.username user) ]}
                                 None (utcnow env)) "bearer")
        else Raise login_failed
    end.
Proof.
  intros (_ & Hnames & _). unfold login_user.
  rewrite (scalar_one_or_none_keyed User.username _
             (UserLogin.username user_in)) by done.
  simpl. destruct (head _) as [user|]; [|done].
  by destruct (verify_password _ _).
Qed.




(** C6.  When one stored user holds the requested username and another one
    the requested email, the pre-insert SELECT returns both rows and
    [scalar_one_or_none] raises: the request ends in
    [MultipleResultsFound], a 500, instead of the 400 conflict.  The store
    is handed back as it was. *)
Theorem C6_register_two_holders (user_in : UserRegistration.t) (env : Env)
    (db : Store) (u1 u2 : User.t) :
  u1 ∈ users db -> u2 ∈ users db -> u1 ≠ u2 ->
  User.username u1 = UserRegistration.username user_in ->
  User.email u2 = UserRegistration.email user_in ->
  register_user user_in env db = (db, Raise MultipleResultsFound)
  ∧ status_of 200 (snd (register_user user_in env db)) = 500
  ∧ snd (register_user user_in env db) ≠ Raise conflict.
Proof.
  intros Hu1 Hu2 Hne Hname Hmail.
  assert (register_user user_in env db = (db, Raise MultipleResultsFound))
    as Hreg.
  { unfold register_user, register_user_between.
    destruct (two_members
                (filter (λ u, User.username u
                              = UserRegistration.username user_in
                              ∨ User.email u = UserRegistration.email user_in)
                        (users db)) u1 u2) as (a & b & rest & ->); try done.
    - apply list_elem_of_filter. split; [by left | done].
    - apply list_elem_of_filter. split; [by right | done]. }
  rewrite Hreg. by repeat split.
Qed.



(** ** Tasks *)

Lemma get_current_user_stored (tok : token) (now : Z) (db : Store)
    (user : User.t) :
  store_wf db ->
  get_current_user tok now db = Return user -> user ∈ users db.
Proof.
  intros Hwf. rewrite get_current_user_unfold by done.
  destruct (decode_access_token tok now) as [payload|]; [|done].
  destruct (payload !! "sub") as [v|]; [|done].
  destruct (head _) as [u|] eqn:Hhead; [|done].
  intros [= <-]. by apply head_filter_Some in Hhead as [? _].
Qed.

(** The ownership SELECT on a store with unique task ids. *)
Lemma owned_task_unfold (task_id : Z) (db : Store) (user : User.t) :
  store_wf db ->
  owned_task task_id db user
  = Return (head (filter (λ t, Task.id t = task_id
                               ∧ Task.owner_id t = User.id user)
                         (tasks db))).
Proof.
  intros (_ & _ & _ & Htids & _). unfold owned_task.
  apply (scalar_one_or_none_keyed Task.id _ task_id); [done|].
  by intros t [? _].
Qed.

(** It finds nothing when the id is absent or belongs to a task of another
    owner: the two cases are one. *)
Lemma owned_task_none (task_id : Z) (db : Store) (user : User.t) :
  (∀ t, t ∈ tasks db -> Task.id t = task_id ->
        Task.owner_id t ≠ User.id user) ->
  owned_task task_id db user = Return None.
Proof.
  intros Hno. unfold owned_task. rewrite filter_is_nil; [done|].
  intros t Ht [Hid Hown]. by apply (Hno t).
Qed.

Lemma owned_task_some (db : Store) (user : User.t) (task : Task.t) :
  store_wf db -> task ∈ tasks db -> Task.owner_id task = User.id user ->
  owned_task (Task.id task) db user = Return (Some task).
Proof.
  intros Hwf Hin Hown. rewrite owned_task_unfold by done. f_equal.
  destruct Hwf as (_ & _ & _ & Htids & _).
  destruct (head _) as [t|] eqn:Hhead.
  - apply head_filter_Some in Hhead as (Ht & Hid & _).
    f_equal. by apply (NoDup_key_inj Task.id (tasks db)).
  - exfalso. by apply (head_filter_None _ _ Hhead task Hin).
Qed.



(** INSERT INTO tasks succeeds when the owner is a stored user. *)
Lemma insert_task_stored_owner (title : string) (description : option string)
    (due_date : option Z) (owner : Z) (now : Z) (db : Store) :
  store_wf db ->
  owner ∈ User.id <$> users db ->
  let row :=
    Task.mk (tasks_id_seq db) title description false due_date owner
            now now in
  insert_task title description due_date owner now db
  = Return (row, {| users := users db;
                    tasks := tasks db ++ [row];
                    users_id_seq := users_id_seq db;
                    tasks_id_seq := tasks_id_seq db + 1 |})
  ∧ store_wf {| users := users db;
                tasks := tasks db ++ [row];
                users_id_seq := users_id_seq db;
                tasks_id_seq := tasks_id_seq db + 1 |}.
Proof.
  intros (Hids & Hnames & Hmails & Htids & Hseq & Htseq & Hfk) Howner row.
  split.
  - unfold insert_task. rewrite bool_decide_true by done. simpl.
    rewrite bool_decide_false; [done|]. by apply seq_not_in_ids.
  - repeat split; simpl; try done.
    + apply NoDup_fmap_snoc; [done|]. by apply seq_not_in_ids.
    + apply Forall_app. split.
      * eapply Forall_impl; [exact Htseq|]. simpl. intros; lia.
      * apply Forall_singleton. simpl. lia.
    + apply Forall_app. split; [done|]. by apply Forall_singleton.
Qed.



(** What an UPDATE leaves alone: the key, the owner, the creation time and
    every attribute the body did not set. *)
Lemma updated_row_frame (task task' : Task.t) (task_in : TaskUpdate.t)
    (now : Z) :
  updated_row task task_in now = Return task' ->
  Task.id task' = Task.id task
  ∧ Task.owner_id task' = Task.owner_id task
  ∧ Task.created_at task' = Task.created_at task
  ∧ (TaskUpdate.title task_in = None -> Task.title task' = Task.title task)
  ∧ (TaskUpdate.description task_in = None ->
     Task.description task' = Task.description task)
  ∧ (TaskUpdate.completed task_in = None ->
     Task.completed task' = Task.completed task)
  ∧ (TaskUpdate.due_date task_in = None ->
     Task.due_date task' = Task.due_date task).
Proof.
  unfold updated_row. destruct (net_change task task_in); simpl.
  - destruct task_in as [[[title|]|] description [[completed|]|] due_date];
      simpl; try done;
      intros [= <-]; simpl; repeat split; try done; by intros ->.
  - intros [= <-]. by repeat split.
Qed.

(** The row written for a body that sets [completed], to a boolean, and
    nothing else. *)
Lemma updated_row_completed_only (task : Task.t) (b : bool) (now : Z) :
  updated_row task (TaskUpdate.mk None None (Some (Some b)) None) now
  = Return (if bool_decide (b = Task.completed task) then task
            else Task.mk (Task.id task) (Task.title task)
                   (Task.description task) b (Task.due_date task)
                   (Task.owner_id task) (Task.created_at task) now).
Proof.
  unfold updated_row, net_change, attr_after. simpl.
  destruct (decide (b = Task.completed task)) as [->|Hb].
  - rewrite !(bool_decide_false (_ ≠ _)) by (intros Hne; by apply Hne).
    by rewrite bool_decide_true.
  - rewrite (bool_decide_true (Some b ≠ _)) by (by intros [= ->]).
    rewrite !(bool_decide_false (_ ≠ _)) by (intros Hne; by apply Hne).
    by rewrite bool_decide_false.
Qed.

(** C5.  For a task owned by the caller, an update whose body sets only
    [completed], to a boolean, succeeds and leaves the title, the
    description and the due date (and id, owner and creation time) as they
    were.  [updated_at] becomes the transaction time when the boolean
    differs from the stored one, and then advances if the clock has; it
    stays as it was when the boolean equals the stored one.  In every
    successful update an attribute the body does not set keeps its
    value. *)
Theorem C5_update_completed_only (tok : token) (env : Env) (db : Store)
    (user : User.t) (task : Task.t) (b : bool) :
  store_wf db ->
  get_current_user tok (utcnow env) db = Return user ->
  task ∈ tasks db ->
  Task.owner_id task = User.id user ->
  (∃ task',
     PUT_task tok (Task.id task)
              (TaskUpdate.mk None None (Some (Some b)) None) env db
     = (replace_task task' db, Return (TaskRead_of task'))
     ∧ Task.title task' = Task.title task
     ∧ Task.description task' = Task.description task
     ∧ Task.due_date task' = Task.due_date task
     ∧ Task.id task' = Task.id task
     ∧ Task.owner_id task' = Task.owner_id task
     ∧ Task.created_at task' = Task.created_at task
     ∧ Task.completed task' = b
     ∧ Task.updated_at task'
       = (if bool_decide (b = Task.completed task)
          then Task.updated_at task else db_now env)
     ∧ (b ≠ Task.completed task -> Task.updated_at task < db_now env ->
        Task.updated_at task < Task.updated_at task'))
  ∧ (∀ task_in db' r,
       PUT_task tok (Task.id task) task_in env db = (db', Return r) ->
       (TaskUpdate.title task_in = None ->
        TaskRead.title r = Task.title task)
       ∧ (TaskUpdate.description task_in = None ->
          TaskRead.description r = Task.description task)
       ∧ (TaskUpdate.completed task_in = None ->
          TaskRead.completed r = Task.completed task)
       ∧ (TaskUpdate.due_date task_in = None ->
          TaskRead.due_date r = Task.due_date task)).
Proof.
  intros Hwf Hauth Hin Hown.
  pose proof (owned_task_some db user task Hwf Hin Hown) as Hsel.
  unfold PUT_task, Depends_current_user. rewrite Hauth.
  unfold update_task. rewrite Hsel. split.
  - rewrite updated_row_completed_only. eexists. split; [done|].
    case_bool_decide as Hb; simpl.
    + by repeat split.
    + repeat split; try done.
  - intros task_in db' r.
    destruct (updated_row task task_in (db_now env)) as [task'|e] eqn:Hrow;
      [|done].
    intros [= <- <-].
    apply updated_row_frame in Hrow as (_ & _ & _ & Ht & Hd & Hc & Hdd).
    by repeat split.
Qed.

(** ** The store invariant under UPDATE and DELETE *)

Lemma replace_task_wf (task row : Task.t) (db : Store) :
  store_wf db ->
  Task.id row = Task.id task ->
  Task.owner_id row = Task.owner_id task ->
  task ∈ tasks db ->
  store_wf (replace_task row db).
Proof.
  intros (Hids & Hnames & Hmails & Htids & Hseq & Htseq & Hfk) Hid Hown Hin.
  rewrite Forall_forall in Htseq. rewrite Forall_forall in Hfk.
  repeat split; simpl; try done.
  - rewrite <- list_fmap_compose.
    erewrite list_fmap_ext; [exact Htids|].
    intros i t _. simpl. by case_bool_decide.
  - apply Forall_fmap, Forall_forall. intros t Ht. simpl.
    case_bool_decide as Heq; [|by apply Htseq].
    rewrite Hid. by apply Htseq.
  - apply Forall_fmap, Forall_forall. intros t Ht. simpl.
    case_bool_decide as Heq; [|by apply Hfk].
    rewrite Hown. by apply Hfk.
Qed.

Lemma delete_row_wf (task : Task.t) (db : Store) :
  store_wf db -> store_wf (delete_row task db).
Proof.
  intros (Hids & Hnames & Hmails & Htids & Hseq & Htseq & Hfk).
  repeat split; simpl; try done.
  - apply NoDup_fmap_2_strong.
    + intros x y Hx Hy Heq.
      apply list_elem_of_filter in Hx as [_ Hx].
      apply list_elem_of_filter in Hy as [_ Hy].
      by apply (NoDup_key_inj Task.id (tasks db)).
    + apply NoDup_filter. by apply NoDup_fmap_1 in Htids.
  - rewrite Forall_forall in Htseq. apply Forall_forall. intros t Ht.
    apply list_elem_of_filter in Ht as [_ Ht]. by apply Htseq.
  - rewrite Forall_forall in Hfk. apply Forall_forall. intros t Ht.
    apply list_elem_of_filter in Ht as [_ Ht]. by apply Hfk.
Qed.

(** After its owner deleted it, a task is gone: the same request again is
    a 404. *)
Lemma delete_task_twice (db : Store) (user : User.t) (task : Task.t) :
  store_wf db -> task ∈ tasks db -> Task.owner_id task = User.id user ->
  delete_task (Task.id task) db user = (delete_row task db, Return tt)
  ∧ delete_task (Task.id task) (delete_row task db) user
    = (delete_row task db, Raise task_not_found).
Proof.
  intros Hwf Hin Hown. unfold delete_task.
  rewrite (owned_task_some db user task) by done. split; [done|].
  rewrite owned_task_none; [done|].
  intros t Ht Hid. simpl in Ht. by apply list_elem_of_filter in Ht as [? _].
Qed.


End Properties.

(** * Further properties of the handlers *)

Section Handlers.
Context `{deps : Deps}.

(** Identity resolution reads the [users] table only. *)
Lemma get_current_user_users (tok : token) (now : Z) (db db' : Store) :
  users db' = users db ->
  get_current_user tok now db' = get_current_user tok now db.
Proof. intros Heq. unfold get_current_user. by rewrite Heq. Qed.

Lemma NoDup_fmap_filter {A K} (key : A -> K) (P : A -> Prop)
    `{∀ x, Decision (P x)} (l : list A) :
  NoDup (key <$> l) -> NoDup (key <$> filter P l).
Proof.
  intros Hnd. apply NoDup_fmap_2_strong.
  - intros x y Hx Hy Heq.
    apply list_elem_of_filter in Hx as [_ Hx].
    apply list_elem_of_filter in Hy as [_ Hy].
    by apply (NoDup_key_inj key l).
  - apply NoDup_filter. by apply NoDup_fmap_1 in Hnd.
Qed.

(** X1.  For the user resolved from the token, the list route returns the
    projections of exactly the stored tasks whose owner is that user, in
    table order, and no task of anyone else; the store is handed back as it
    was. *)
Theorem X1_list_tasks_own (tok : token) (env : Env) (db : Store)
    (user : User.t) :
  get_current_user tok (utcnow env) db = Return user ->
  ∃ rs,
    GET_tasks tok env db = (db, Return rs)
    ∧ (∀ r, r ∈ rs <->
            ∃ t, t ∈ tasks db ∧ Task.owner_id t = User.id user
                 ∧ r = TaskRead_of t)
    ∧ Forall (λ r, TaskRead.owner_id r = User.id user) rs
    ∧ rs `sublist_of` (TaskRead_of <$> tasks db).
Proof.
  intros Hauth. unfold GET_tasks, Depends_current_user. rewrite Hauth.
  unfold list_tasks. eexists. split; [done|]. split; [|split].
  - intros r. rewrite list_elem_of_fmap. split.
    + intros (t & -> & Ht). apply list_elem_of_filter in Ht as [Hown Ht].
      by exists t.
    + intros (t & Ht & Hown & ->). exists t. split; [done|].
      by apply list_elem_of_filter.
  - apply Forall_fmap, Forall_forall. intros t Ht.
    by apply list_elem_of_filter in Ht as [Hown _].
  - apply fmap_sublist, sublist_filter.
Qed.


Lemma replace_task_elem (row old : Task.t) (db : Store) :
  old ∈ tasks db -> Task.id old = Task.id row ->
  row ∈ tasks (replace_task row db).
Proof.
  intros Hin Hid. simpl. apply list_elem_of_fmap. exists old.
  split; [|done]. by rewrite bool_decide_true.
Qed.

Lemma replace_task_other (row t : Task.t) (db : Store) :
  t ∈ tasks db -> Task.id t ≠ Task.id row ->
  t ∈ tasks (replace_task row db).
Proof.
  intros Hin Hid. simpl. apply list_elem_of_fmap. exists t.
  split; [|done]. by rewrite bool_decide_false.
Qed.

(** X3.  Deleting a task one owns answers with no content, removes that
    task and no other, leaves the users alone and keeps the store
    well-formed; afterwards the same id is a 404 for delete and for get. *)
Theorem X3_delete_task_own (tok : token) (env : Env) (db : Store)
    (user : User.t) (task : Task.t) :
  store_wf db ->
  get_current_user tok (utcnow env) db = Return user ->
  task ∈ tasks db ->
  Task.owner_id task = User.id user ->
  ∃ db',
    DELETE_task tok (Task.id task) env db = (db', Return tt)
    ∧ (∀ t, t ∈ tasks db' <-> t ∈ tasks db ∧ t ≠ task)
    ∧ users db' = users db
    ∧ store_wf db'
    ∧ DELETE_task tok (Task.id task) env db' = (db', Raise task_not_found)
    ∧ GET_task tok (Task.id task) env db' = (db', Raise task_not_found).
Proof.
  intros Hwf Hauth Hin Hown.
  assert (∀ t, t ∈ tasks (delete_row task db) <-> t ∈ tasks db ∧ t ≠ task)
    as Hrest.
  { intros t. simpl. rewrite list_elem_of_filter. split.
    - intros [Hid Ht]. split; [done|]. by intros ->.
    - intros [Ht Hne]. split; [|done]. intros Hid. apply Hne.
      destruct Hwf as (_ & _ & _ & Htids & _).
      by apply (NoDup_key_inj Task.id (tasks db)). }
  assert (owned_task (Task.id task) (delete_row task db) user = Return None)
    as Hgone.
  { apply owned_task_none. intros t Ht Hid.
    apply Hrest in Ht as [Ht Hne]. exfalso. apply Hne.
    destruct Hwf as (_ & _ & _ & Htids & _).
    by apply (NoDup_key_inj Task.id (tasks db)). }
  assert (get_current_user tok (utcnow env) (delete_row task db)
          = Return user) as Hauth'
    by by rewrite (get_current_user_users _ _ db).
  exists (delete_row task db).
  unfold DELETE_task, GET_task, Depends_current_user.
  rewrite Hauth, Hauth'. unfold delete_task, get_task.
  rewrite (owned_task_some db user task), Hgone by done.
  split; [done|]. split; [exact Hrest|]. split; [done|].
  split; [by apply delete_row_wf|]. by split.
Qed.

(** X4.  A successful update changes one row of one table: the users, the
    number of tasks and every task with another id stay; the updated task
    keeps its id, its owner (the caller) and its creation time; the store
    stays well-formed, and getting the task afterwards returns what the
    update returned.  An update that raises leaves the store as it was. *)
Theorem X4_update_task_frame (tok : token) (task_id : Z)
    (task_in : TaskUpdate.t) (env : Env) (db db' : Store) (user : User.t)
    (r : TaskRead.t) :
  store_wf db ->
  get_current_user tok (utcnow env) db = Return user ->
  PUT_task tok task_id task_in env db = (db', Return r) ->
  users db' = users db
  ∧ length (tasks db') = length (tasks db)
  ∧ (∀ t, t ∈ tasks db -> Task.id t ≠ task_id -> t ∈ tasks db')
  ∧ (∃ old, old ∈ tasks db ∧ Task.id old = task_id
            ∧ Task.owner_id old = User.id user
            ∧ TaskRead.id r = task_id
            ∧ TaskRead.owner_id r = User.id user
            ∧ TaskRead.created_at r = Task.created_at old)
  ∧ store_wf db'
  ∧ GET_task tok task_id env db' = (db', Return r).
Proof.
  intros Hwf Hauth. unfold PUT_task, Depends_current_user. rewrite Hauth.
  unfold update_task. rewrite owned_task_unfold by done.
  destruct (head _) as [old|] eqn:Hhead; [|done].
  apply head_filter_Some in Hhead as (Hin & Hid & Hown).
  destruct (updated_row old task_in (db_now env)) as [row|e] eqn:Hrow;
    [|done].
  intros [= <- <-].
  apply updated_row_frame in Hrow as (Hrid & Hrown & Hrcreated & _).
  assert (store_wf (replace_task row db)) as Hwf'
    by by apply (replace_task_wf old).
  split; [done|]. split; [by simpl; rewrite length_fmap|].
  split; [|split; [|split; [done|]]].
  - intros t Ht Hne. apply replace_task_other; [done|]. congruence.
  - exists old. simpl. rewrite Hrid, Hrown, Hrcreated. by repeat split.
  - unfold GET_task, Depends_current_user.
    rewrite (get_current_user_users _ _ db) by done. rewrite Hauth.
    unfold get_task. rewrite <- Hid, <- Hrid.
    rewrite (owned_task_some (replace_task row db) user row); try done.
    + apply (replace_task_elem row old); [done|]. by rewrite Hrid.
    + by rewrite Hrown.
Qed.

(** X5.  An update of an owned task whose body sets [title] or
    [completed] to an explicit null is rejected at commit by the NOT NULL
    constraint: the route ends in an [IntegrityError], a 500, and the store
    is as it was. *)
Theorem X5_update_null_rejected (tok : token) (task_in : TaskUpdate.t)
    (env : Env) (db : Store) (user : User.t) (task : Task.t) :
  store_wf db ->
  get_current_user tok (utcnow env) db = Return user ->
  task ∈ tasks db ->
  Task.owner_id task = User.id user ->
  TaskUpdate.title task_in = Some None
  ∨ TaskUpdate.completed task_in = Some None ->
  ∃ c,
    PUT_task tok (Task.id task) task_in env db
    = (db, Raise (IntegrityError c))
    ∧ status_of 200 (snd (PUT_task tok (Task.id task) task_in env db)) = 500.
Proof.
  intros Hwf Hauth Hin Hown Hnull.
  unfold PUT_task, Depends_current_user. rewrite Hauth.
  unfold update_task. rewrite (owned_task_some db user task) by done.
  assert (∃ c, updated_row task task_in (db_now env)
               = Raise (IntegrityError c)) as (c & ->).
  { unfold updated_row, net_change, attr_after.
    destruct task_in as [title description completed due_date].
    simpl in Hnull. simpl.
    destruct Hnull as [-> | ->]; simpl.
    - by eexists.
    - rewrite !orb_true_r. simpl. destruct title as [[?|]|]; by eexists. }
  by exists c.
Qed.





(** X9.  On a store with unique usernames a login returns a token exactly
    when a stored user has the username and that user's hash verifies the
    password.  The token is a bearer token issued for that username at the
    time of the login, and presented at that time it resolves to that
    user. *)
Theorem X9_login_success (user_in : UserLogin.t) (env : Env) (db : Store) :
  store_wf db ->
  (∀ tk, login_user user_in env db = Return tk ->
     ∃ u, u ∈ users db
          ∧ User.username u = UserLogin.username user_in
          ∧ verify_password (UserLogin.password user_in)
                            (User.hashed_password u) = true
          ∧ tk = Token.mk (create_access_token
                             {[ "sub" := PStr (UserLogin.username user_in) ]}
                             None (utcnow env)) "bearer"
          ∧ get_current_user (Token.access_token tk) (utcnow env) db
            = Return u)
  ∧ (∀ u, u ∈ users db ->
          User.username u = UserLogin.username user_in ->
          verify_password (UserLogin.password user_in)
                          (User.hashed_password u) = true ->
          ∃ tk, login_user user_in env db = Return tk).
Proof.
  intros Hwf. rewrite login_user_unfold by done. split.
  - intros tk. destruct (head _) as [u|] eqn:Hhead; [|done].
    pose proof Hhead as Hhead'.
    apply head_filter_Some in Hhead' as [Hin Hname].
    destruct (verify_password _ _) eqn:Hverify; [|done].
    intros [= <-]. exists u. rewrite Hname. do 4 (split; [done|]). simpl.
    destruct (issued_token_decode (UserLogin.username user_in) (utcnow env))
      as (claims & _ & Hsub & _ & Hdec).
    rewrite get_current_user_unfold by done.
    rewrite Hdec, bool_decide_false by lia. rewrite Hsub.
    assert (head (filter (λ u0, PStr (User.username u0)
                                = PStr (UserLogin.username user_in))
                         (users db)) = Some u) as ->; [|done].
    rewrite <- Hhead. f_equal. apply list_filter_iff.
    intros x. split; [by intros [= ->] | by intros ->].
  - intros u Hu Hname Hverify. rewrite <- Hname.
    destruct Hwf as (_ & Hnames & _).
    rewrite (head_filter_key User.username) by done. rewrite Hverify.
    by eexists.
Qed.






(** X12.  What a registration can do to the store.  If it raises, the
    store is as it was.  If it returns, exactly one user was appended: the
    username and email are the requested ones and were held by no stored
    user, the id was held by no stored user, the creation time is the
    transaction time, the stored hash verifies the requested password, the
    response is the projection of that row, and the tasks are as they
    were. *)
Theorem X12_register_outcomes (user_in : UserRegistration.t) (env : Env)
    (db db' : Store) :
  (∀ e, register_user user_in env db = (db', Raise e) -> db' = db)
  ∧ (∀ r, register_user user_in env db = (db', Return r) ->
       ∃ row,
         users db' = users db ++ [row]
         ∧ tasks db' = tasks db
         ∧ r = UserRead_of row
         ∧ User.username row = UserRegistration.username user_in
         ∧ User.email row = UserRegistration.email user_in
         ∧ User.created_at row = db_now env
         ∧ verify_password (UserRegistration.password user_in)
                           (User.hashed_password row) = true
         ∧ (UserRegistration.username user_in ∉ User.username <$> users db)
         ∧ (UserRegistration.email user_in ∉ User.email <$> users db)
         ∧ (User.id row ∉ User.id <$> users db)).
Proof.
  unfold register_user, register_user_between.
  destruct (scalar_one_or_none _) as [[existing|]|e0].
  - split; [by intros e [= <- _] | done].
  - unfold insert_user. repeat case_bool_decide; simpl.
    1-3: split; [by intros e [= <- _] | done].
    split; [done|]. intros r [= <- <-]. eexists. simpl.
    do 6 (split; [done|]). split; [apply verify_password_hash|].
    by repeat split.
  - split; [by intros e [= <- _] | done].
Qed.

(** X13.  Well-formedness of the store is an invariant of the service: it
    holds of the empty store, and registration and the create, update and
    delete routes each take a well-formed store to a well-formed store,
    whatever the token and the request. *)
Theorem X13_store_wf_invariant (db : Store) :
  store_wf db ->
  store_wf empty_store
  ∧ (∀ user_in env, store_wf (fst (register_user user_in env db)))
  ∧ (∀ tok task_in env, store_wf (fst (POST_tasks tok task_in env db)))
  ∧ (∀ tok task_id task_in env,
       store_wf (fst (PUT_task tok task_id task_in env db)))
  ∧ (∀ tok task_id env, store_wf (fst (DELETE_task tok task_id env db))).
Proof.
  intros Hwf. split; [by_compute|]. split; [|split; [|split]].
  - intros user_in env. unfold register_user, register_user_between.
    destruct (scalar_one_or_none _) as [[existing|]|e0]; try done.
    destruct (insert_user _ _ _ _ db) as [[row db']|e] eqn:Hins; [|done].
    simpl. by apply (insert_user_wf _ _ _ _ _ _ _ Hwf Hins).
  - intros tok task_in env. unfold POST_tasks, Depends_current_user.
    destruct (get_current_user tok (utcnow env) db) as [user|e] eqn:Hauth;
      [|done].
    pose proof (get_current_user_stored _ _ _ _ Hwf Hauth) as Hstored.
    destruct (insert_task_stored_owner (TaskCreate.title task_in)
                (TaskCreate.description task_in)
                (TaskCreate.due_date task_in)
                (User.id user) (db_now env) db Hwf) as [Hins Hwf'].
    { by apply list_elem_of_fmap_2. }
    unfold create_task. by rewrite Hins.
  - intros tok task_id task_in env. unfold PUT_task, Depends_current_user.
    destruct (get_current_user tok (utcnow env) db) as [user|e]; [|done].
    unfold update_task. rewrite owned_task_unfold by done.
    destruct (head _) as [old|] eqn:Hhead; [|done].
    apply head_filter_Some in Hhead as (Hin & _).
    destruct (updated_row old task_in (db_now env)) as [row|e] eqn:Hrow;
      [|done].
    apply updated_row_frame in Hrow as (Hrid & Hrown & _).
    simpl. by apply (replace_task_wf old).
  - intros tok task_id env. unfold DELETE_task, Depends_current_user.
    destruct (get_current_user tok (utcnow env) db) as [user|e]; [|done].
    unfold delete_task.
    destruct (owned_task task_id db user) as [[task|]|e]; try done.
    simpl. by apply delete_row_wf.
Qed.


(** ** Tokens, further *)





(** X17.  The caller of [create_access_token] cannot choose the expiry
    through [data]: an ["exp"] entry in [data] is overwritten. *)
Theorem X17_expiry_not_from_data (data : gmap string pyval) (v : pyval)
    (expires_delta : option Z) (now : Z) :
  create_access_token (<[ "exp" := v ]> data) expires_delta now
  = create_access_token data expires_delta now.
Proof. unfold create_access_token. by rewrite insert_insert_eq. Qed.

(** X18.  A bearer string that is not a token, a token under another
    algorithm, a token whose signature is not the MAC of its claims under
    the secret, and a token whose expiry is past all fail to resolve: every
    protected route answers the 401 credentials exception without running
    its handler, and the store is as it was. *)
Theorem X18_invalid_token_rejected (tok : token) (env : Env) (db : Store) :
  match tok with
  | NotAJws _ => True
  | Jws alg claims sig =>
      alg ≠ "HS256"
      ∨ sig ≠ hmac_sha256 SECRET_KEY alg claims
      ∨ ∃ e, claims !! "exp" = Some (PInt e) ∧ e < timegm (utcnow env)
  end ->
  (∀ A (handler : User.t -> Store * result A),
     Depends_current_user tok env db handler
     = (db, Raise credentials_exception))
  ∧ GET_users_me tok env db = (db, Raise credentials_exception)
  ∧ (∀ task_in, POST_tasks tok task_in env db
                = (db, Raise credentials_exception))
  ∧ GET_tasks tok env db = (db, Raise credentials_exception)
  ∧ (∀ task_id, GET_task tok task_id env db
                = (db, Raise credentials_exception))
  ∧ (∀ task_id task_in, PUT_task tok task_id task_in env db
                        = (db, Raise credentials_exception))
  ∧ (∀ task_id, DELETE_task tok task_id env db
                = (db, Raise credentials_exception)).
Proof.
  intros Hbad.
  assert (decode_access_token tok (utcnow env) = None) as Hdec.
  { destruct tok as [alg claims sig|raw]; [|done].
    destruct Hbad as [Halg | [Hsig | (e & Hexp & Hlt)]].
    - unfold decode_access_token, jwt_decode.
      rewrite bool_decide_false; [done|].
      intros Hin. by apply list_elem_of_singleton in Hin.
    - by apply decode_bad_signature.
    - by apply (decode_expired _ _ _ e). }
  assert (∀ A (handler : User.t -> Store * result A),
            Depends_current_user tok env db handler
            = (db, Raise credentials_exception)) as Hdep.
  { intros A handler. unfold Depends_current_user, get_current_user.
    by rewrite Hdec. }
  repeat split; try done; intros; apply Hdep.
Qed.



End Handlers.


(** * The service on concrete requests *)

#[local] Existing Instance demo_deps.


Lemma demo_store_wf : store_wf demo_store.
Proof. by_compute. Qed.

Lemma empty_store_wf : store_wf empty_store.
Proof. by_compute. Qed.

Lemma demo_alice_resolves :
  get_current_user demo_alice_token (utcnow demo_env) demo_store
  = Return demo_alice.
Proof. vm_compute. reflexivity. Qed.

Lemma demo_bob_resolves :
  get_current_user demo_bob_token (utcnow demo_env) demo_store
  = Return demo_bob.
Proof. vm_compute. reflexivity. Qed.




(** The stored task is already completed; the body sets [completed] to
    true again.  The route answers 200 with the task as it was: the
    transaction time is past the stored [updated_at], yet [updated_at]
    has not moved. *)
Lemma C5_counterexample :
  ∃ r,
    PUT_task demo_alice_token 1
             (TaskUpdate.mk None None (Some (Some true)) None)
             demo_env demo_store
    = (demo_store, Return r)
    ∧ TaskRead.updated_at r = Task.updated_at demo_task
    ∧ Task.updated_at demo_task < db_now demo_env
    ∧ ¬ (Task.updated_at demo_task < TaskRead.updated_at r).
Proof.
  exists (TaskRead_of demo_task).
  split; [vm_compute; reflexivity|].
  split; [reflexivity|]. split; [by_compute|by_compute].
Qed.

Lemma C5_witness :
  ∃ task',
    PUT_task demo_alice_token (Task.id demo_task)
             (TaskUpdate.mk None None (Some (Some false)) None)
             demo_env demo_store
    = (replace_task task' demo_store, Return (TaskRead_of task'))
    ∧ Task.title task' = Task.title demo_task
    ∧ Task.completed task' = false
    ∧ Task.updated_at demo_task < Task.updated_at task'.
Proof.
  assert (demo_task ∈ tasks demo_store) as Hin by by_compute.
  assert (Task.owner_id demo_task = User.id demo_alice) as Hown
    by reflexivity.
  destruct (proj1 (C5_update_completed_only demo_alice_token demo_env
                     demo_store demo_alice demo_task false demo_store_wf
                     demo_alice_resolves Hin Hown))
    as (task' & Hput & Htitle & _ & _ & _ & _ & _ & Hdone & _ & Hadv).
  exists task'. split; [exact Hput|]. split; [exact Htitle|].
  split; [exact Hdone|]. apply Hadv; by_compute.
Defined.

(** The same body with an explicit null: the UPDATE is rejected by the
    NOT NULL constraint and the error leaves the handler. *)
Lemma update_completed_null :
  PUT_task demo_alice_token 1 (TaskUpdate.mk None None (Some None) None)
           demo_env demo_store
  = (demo_store, Raise (IntegrityError "tasks.completed NOT NULL")).
Proof. vm_compute. reflexivity. Qed.

Lemma C6_witness :
  register_user (UserRegistration.mk "alice" "b@x.com" "secret9")
                demo_env demo_store
  = (demo_store, Raise MultipleResultsFound)
  ∧ status_of 200
      (snd (register_user (UserRegistration.mk "alice" "b@x.com" "secret9")
                          demo_env demo_store)) = 500.
Proof.
  assert (demo_alice ∈ users demo_store) as Ha by by_compute.
  assert (demo_bob ∈ users demo_store) as Hb by by_compute.
  assert (demo_alice ≠ demo_bob) as Hne by by_compute.
  destruct (C6_register_two_holders
              (UserRegistration.mk "alice" "b@x.com" "secret9")
              demo_env demo_store demo_alice demo_bob Ha Hb Hne
              eq_refl eq_refl) as (Hreg & Hstatus & _).
  split; [exact Hreg | exact Hstatus].
Defined.





Lemma C10_witness :
  GET_users_me demo_anonymous_token demo_env demo_store
  = (demo_store, Raise credentials_exception)
  ∧ (∀ task_id, DELETE_task demo_anonymous_token task_id demo_env demo_store
                = (demo_store, Raise credentials_exception)).
Proof.
  assert (decode_access_token demo_anonymous_token (utcnow demo_env)
          = Some {[ "exp" := PInt 1700086400 ]}) as Hdec
    by (vm_compute; reflexivity).
  destruct (C10_missing_sub_rejected demo_anonymous_token demo_env
              demo_store {[ "exp" := PInt 1700086400 ]} Hdec eq_refl)
    as (_ & Hme & _ & _ & _ & _ & Hdel & _).
  split; [exact Hme | exact Hdel].
Defined.

(** The end-to-end scenario: register and log in as alice, create a task,
    list it, complete it, delete it, and find it gone. *)
Example end_to_end :
  snd (register_user (UserRegistration.mk "alice" "a@x.com" "secret1")
                     demo_env empty_store)
  = Return (UserRead.mk 1 "alice" "a@x.com" (db_now demo_env))
  ∧ login_user (UserLogin.mk "alice" "secret1") demo_env scenario_registered
    = Return (Token.mk demo_alice_token "bearer")
  ∧ snd (POST_tasks demo_alice_token (TaskCreate.mk "buy milk" None None)
                    demo_env scenario_registered)
    = Return (TaskRead.mk 1 "buy milk" None false None 1
                          (db_now demo_env) (db_now demo_env))
  ∧ snd (GET_tasks demo_alice_token demo_env scenario_created)
    = Return [TaskRead.mk 1 "buy milk" None false None 1
                          (db_now demo_env) (db_now demo_env)]
  ∧ snd (PUT_task demo_alice_token 1
                  (TaskUpdate.mk None None (Some (Some true)) None)
                  demo_env scenario_created)
    = Return (TaskRead.mk 1 "buy milk" None true None 1
                          (db_now demo_env) (db_now demo_env))
  ∧ snd (DELETE_task demo_alice_token 1 demo_env scenario_updated)
    = Return tt
  ∧ snd (GET_task demo_alice_token 1 demo_env scenario_deleted)
    = Raise task_not_found.
Proof. repeat split; vm_compute; reflexivity. Qed.

(** ** The further properties on concrete requests *)

Lemma X1_witness :
  ∃ rs,
    GET_tasks demo_bob_token demo_env demo_store = (demo_store, Return rs)
    ∧ Forall (λ r, TaskRead.owner_id r = User.id demo_bob) rs.
Proof.
  destruct (X1_list_tasks_own demo_bob_token demo_env demo_store demo_bob
              demo_bob_resolves) as (rs & Hget & _ & Hown & _).
  exists rs. split; [exact Hget | exact Hown].
Defined.


Lemma X3_witness :
  ∃ db',
    DELETE_task demo_alice_token (Task.id demo_task) demo_env demo_store
    = (db', Return tt)
    ∧ DELETE_task demo_alice_token (Task.id demo_task) demo_env db'
      = (db', Raise task_not_found).
Proof.
  assert (demo_task ∈ tasks demo_store) as Hin by by_compute.
  destruct (X3_delete_task_own demo_alice_token demo_env demo_store
              demo_alice demo_task demo_store_wf demo_alice_resolves Hin
              eq_refl) as (db' & Hdel & _ & _ & _ & Hagain & _).
  exists db'. split; [exact Hdel | exact Hagain].
Defined.

Lemma X4_witness :
  let body := TaskUpdate.mk (Some (Some "buy oat milk")) None None None in
  let db' := fst (PUT_task demo_alice_token 1 body demo_env demo_store) in
  let r := TaskRead.mk 1 "buy oat milk" None true None 1
             1650000000000000 (db_now demo_env) in
  users db' = users demo_store
  ∧ GET_task demo_alice_token 1 demo_env db' = (db', Return r).
Proof.
  intros body db' r.
  assert (PUT_task demo_alice_token 1 body demo_env demo_store
          = (db', Return r)) as Hput by (vm_compute; reflexivity).
  destruct (X4_update_task_frame demo_alice_token 1 body demo_env
              demo_store db' demo_alice r demo_store_wf
              demo_alice_resolves Hput)
    as (Husers & _ & _ & _ & _ & Hget).
  split; [exact Husers | exact Hget].
Defined.

Lemma X5_witness :
  ∃ c,
    PUT_task demo_alice_token (Task.id demo_task)
             (TaskUpdate.mk (Some None) None None None) demo_env demo_store
    = (demo_store, Raise (IntegrityError c)).
Proof.
  assert (demo_task ∈ tasks demo_store) as Hin by by_compute.
  destruct (X5_update_null_rejected demo_alice_token
              (TaskUpdate.mk (Some None) None None None) demo_env
              demo_store demo_alice demo_task demo_store_wf
              demo_alice_resolves Hin eq_refl (or_introl eq_refl))
    as (c & Hput & _).
  exists c. exact Hput.
Defined.




Lemma X9_witness :
  ∃ tk, login_user (UserLogin.mk "alice" "secret1") demo_env demo_store
        = Return tk.
Proof.
  assert (demo_alice ∈ users demo_store) as Hin by by_compute.
  assert (verify_password "secret1" (User.hashed_password demo_alice)
          = true) as Hverify by (vm_compute; reflexivity).
  exact (proj2 (X9_login_success (UserLogin.mk "alice" "secret1") demo_env
                  demo_store demo_store_wf)
           demo_alice Hin eq_refl Hverify).
Defined.



Lemma X13_witness :
  store_wf (fst (POST_tasks demo_alice_token
                   (TaskCreate.mk "water plants" None None) demo_env
                   demo_store)).
Proof.
  destruct (X13_store_wf_invariant demo_store demo_store_wf)
    as (_ & _ & Hpost & _).
  apply Hpost.
Defined.



Lemma X18_witness :
  GET_tasks (NotAJws "not.a.token") demo_env demo_store
  = (demo_store, Raise credentials_exception).
Proof.
  destruct (X18_invalid_token_rejected (NotAJws "not.a.token") demo_env
              demo_store I) as (_ & _ & _ & Hlist & _).
  exact Hlist.
Defined.

